(** * LunataskAPI: a shallow embedding of the Lunatask HTTP client

    The client (class [LunataskAPI]) wraps six calls of the axios HTTP
    library.  Each method is an [async] function whose body is one
    [try { ... } catch (error) { ... }] block.  The embedding keeps

    - the values that travel at run time as untyped JavaScript values
      ([Js.value]): TypeScript interfaces are erased, so a response body is
      whatever the server sent;
    - the effects of a call as explicit state passing over a [World]: the
      client object [this], the requests handed to axios so far, and the
      lines written with [console.error];
    - the outcome of a call as a [completion]: a normal return or a thrown
      value (a rejected promise);
    - axios itself as a black box [network]: from the requests issued before
      and the current request to a resolved response or a rejection. *)

From Stdlib Require Import String List ZArith Bool Lia.
Import ListNotations.

Local Open Scope string_scope.
Local Open Scope list_scope.
Local Set Warnings "-register-all".

(** ** JavaScript values *)

Module Js.

Inductive value : Type :=
| Undefined
| Null
| Bool (b : bool)
| Number (n : Z)
| Str (s : string)
| Array (items : list value)
| Object (fields : list (string * value)).

(** A thrown value: either the reason axios rejected with (any value), or
    the TypeError the runtime raises when a property of [null] or
    [undefined] is read. *)
Inductive thrown : Type :=
| Rejection (reason : value)
| TypeError (base : value) (key : string).

(** ToBoolean.  Numbers are the integer-valued ones a JSON body yields, so
    the only falsy number is zero. *)
Definition truthy (v : value) : bool :=
  match v with
  | Undefined | Null => false
  | Bool b => b
  | Number n => negb (Z.eqb n 0)
  | Str s => negb (String.eqb s EmptyString)
  | Array _ | Object _ => true
  end.

(** [v === 'lit'] for a string literal. *)
Definition strict_eq_str (v : value) (lit : string) : bool :=
  match v with
  | Str s => String.eqb s lit
  | _ => false
  end.

(** Own-property lookup in an object literal; the first binding wins. *)
Fixpoint lookup (key : string) (fields : list (string * value)) : value :=
  match fields with
  | [] => Undefined
  | (k, v) :: rest => if String.eqb k key then v else lookup key rest
  end.

(** [v.key] for the keys the client reads ([message], [tasks], [task]),
    none of which is found on a prototype: reading from [null] or
    [undefined] throws, reading from a primitive or an array gives
    [undefined]. *)
Definition get (v : value) (key : string) : value + thrown :=
  match v with
  | Undefined | Null => inr (TypeError v key)
  | Object fields => inl (lookup key fields)
  | Bool _ | Number _ | Str _ | Array _ => inl Undefined
  end.

(** [obj.key = v] on a plain object: replaces the binding in place or
    appends a new one (insertion order is kept). *)
Fixpoint set (key : string) (v : string) (obj : list (string * string))
  : list (string * string) :=
  match obj with
  | [] => [(key, v)]
  | (k, old) :: rest =>
      if String.eqb k key then (k, v) :: rest else (k, old) :: set key v rest
  end.

End Js.

(** ** Requests, responses and the world *)

Inductive Method : Type := GET | POST | PUT | DELETE.

(** What a call of [axios.get/post/put/delete] receives: the URL, the
    [headers] and optional [params] of the config object, and the body
    argument of [post] and [put]. *)
Record Request : Type := mkRequest {
  method : Method;
  url : string;
  headers : list (string * string);
  params : option (list (string * string));
  body : option Js.value
}.

Record Response : Type := mkResponse {
  status : Z;
  data : Js.value
}.

Inductive Outcome : Type :=
| Resolved (response : Response)
| Rejected (error : Js.thrown).

(** The fields of the class. *)
Record LunataskAPI : Type := mkLunataskAPI {
  baseUrl : string;
  accessToken : string
}.

(** [constructor(accessToken)], with the field initialiser of [baseUrl]. *)
Definition new_LunataskAPI (token : string) : LunataskAPI :=
  {| baseUrl := "https://api.lunatask.app/v1"; accessToken := token |}.

Record LogEntry : Type := mkLogEntry {
  log_message : string;
  log_error : Js.thrown
}.

Record World : Type := mkWorld {
  this : LunataskAPI;
  sent : list Request;
  console : list LogEntry
}.

Definition initial_world (token : string) : World :=
  {| this := new_LunataskAPI token; sent := []; console := [] |}.

(** ** The monad of async method bodies *)

Inductive completion (A : Type) : Type :=
| Normal (a : A)
| Abrupt (e : Js.thrown).

Arguments Normal {A} a.
Arguments Abrupt {A} e.

Definition Async (A : Type) : Type := World -> completion A * World.

Definition ret {A} (a : A) : Async A := fun w => (Normal a, w).

Definition throw {A} (e : Js.thrown) : Async A := fun w => (Abrupt e, w).

Definition bind {A B} (m : Async A) (k : A -> Async B) : Async B :=
  fun w =>
    match m w with
    | (Normal a, w') => k a w'
    | (Abrupt e, w') => (Abrupt e, w')
    end.

Definition try_catch {A} (block : Async A) (handler : Js.thrown -> Async A)
  : Async A :=
  fun w =>
    match block w with
    | (Normal a, w') => (Normal a, w')
    | (Abrupt e, w') => handler e w'
    end.

Declare Scope async_scope.
Delimit Scope async_scope with async.

Notation "x <- m ;; k" := (bind m (fun x => k))
  (at level 100, m at next level, right associativity) : async_scope.
Notation "m ;; k" := (bind m (fun _ => k))
  (at level 100, right associativity) : async_scope.

Local Open Scope async_scope.

(** Reading a field of [this]. *)
Definition this_field {A} (f : LunataskAPI -> A) : Async A :=
  fun w => (Normal (f (this w)), w).

(** [console.error(message, error)]. *)
Definition console_error (message : string) (error : Js.thrown) : Async unit :=
  fun w =>
    (Normal tt,
     {| this := this w;
        sent := sent w;
        console := console w ++ [mkLogEntry message error] |}).

(** A property read inside a method body. *)
Definition prop (v : Js.value) (key : string) : Async Js.value :=
  match Js.get v key with
  | inl x => ret x
  | inr e => throw e
  end.

(** The template literal [`bearer ${this.accessToken}`]. *)
Definition bearer (token : string) : string := String.append "bearer " token.

Section Client.

(** The HTTP library and the server behind it. *)
Variable network : list Request -> Request -> Outcome.

(** [await axios(request)]: the request is recorded, then the promise
    settles. *)
Definition axios (r : Request) : Async Response :=
  fun w =>
    let w' := {| this := this w; sent := sent w ++ [r]; console := console w |} in
    match network (sent w) r with
    | Resolved response => (Normal response, w')
    | Rejected error => (Abrupt error, w')
    end.

Definition axios_get (u : string) (hs : list (string * string))
    (ps : option (list (string * string))) : Async Response :=
  axios (mkRequest GET u hs ps None).

Definition axios_post (u : string) (payload : Js.value)
    (hs : list (string * string)) : Async Response :=
  axios (mkRequest POST u hs None (Some payload)).

Definition axios_put (u : string) (payload : Js.value)
    (hs : list (string * string)) : Async Response :=
  axios (mkRequest PUT u hs None (Some payload)).

Definition axios_delete (u : string) (hs : list (string * string))
  : Async Response :=
  axios (mkRequest DELETE u hs None None).

(** [ping()] *)
Definition ping : Async Js.value :=
  try_catch
    (base <- this_field baseUrl ;;
     token <- this_field accessToken ;;
     response <- axios_get (String.append base "/ping")
                   [("Authorization", bearer token)] None ;;
     (* response.data && response.data.message === 'pong' *)
     if Js.truthy (data response)
     then (message <- prop (data response) "message" ;;
           ret (Js.Bool (Js.strict_eq_str message "pong")))
     else ret (data response))
    (fun error =>
       console_error "Authentication failed:" error ;;
       ret (Js.Bool false)).

(** [retrieveAll(source?, source_id?)] *)
Definition retrieveAll (source source_id : option string) : Async Js.value :=
  try_catch
    (let params := [] in
     (* if (source) params.source = source; *)
     let params :=
       match source with
       | Some s => if Js.truthy (Js.Str s) then Js.set "source" s params else params
       | None => params
       end in
     (* if (source_id) params.source_id = source_id; *)
     let params :=
       match source_id with
       | Some s => if Js.truthy (Js.Str s) then Js.set "source_id" s params else params
       | None => params
       end in
     base <- this_field baseUrl ;;
     token <- this_field accessToken ;;
     response <- axios_get (String.append base "/tasks")
                   [("Authorization", bearer token)] (Some params) ;;
     prop (data response) "tasks")
    (fun error =>
       console_error "Error retrieving tasks:" error ;;
       throw error).

(** [retrieveSingle(taskId)] *)
Definition retrieveSingle (taskId : string) : Async Js.value :=
  try_catch
    (base <- this_field baseUrl ;;
     token <- this_field accessToken ;;
     response <- axios_get (String.append base (String.append "/tasks/" taskId))
                   [("Authorization", bearer token)] None ;;
     prop (data response) "task")
    (fun error =>
       console_error
         (String.append "Error retrieving task with ID " (String.append taskId ":"))
         error ;;
       throw error).

(** [createTask(taskParams)] *)
Definition createTask (taskParams : Js.value) : Async Js.value :=
  try_catch
    (base <- this_field baseUrl ;;
     token <- this_field accessToken ;;
     response <- axios_post (String.append base "/tasks") taskParams
                   [("Authorization", bearer token);
                    ("Content-Type", "application/json")] ;;
     prop (data response) "task")
    (fun error =>
       console_error "Error creating task:" error ;;
       throw error).

(** [updateTask(taskId, taskParams)] *)
Definition updateTask (taskId : string) (taskParams : Js.value)
  : Async Js.value :=
  try_catch
    (base <- this_field baseUrl ;;
     token <- this_field accessToken ;;
     response <- axios_put (String.append base (String.append "/tasks/" taskId))
                   taskParams
                   [("Authorization", bearer token);
                    ("Content-Type", "application/json")] ;;
     prop (data response) "task")
    (fun error =>
       console_error
         (String.append "Error updating task with ID " (String.append taskId ":"))
         error ;;
       throw error).

(** [deleteTask(taskId)] *)
Definition deleteTask (taskId : string) : Async Js.value :=
  try_catch
    (base <- this_field baseUrl ;;
     token <- this_field accessToken ;;
     response <- axios_delete (String.append base (String.append "/tasks/" taskId))
                   [("Authorization", bearer token)] ;;
     prop (data response) "task")
    (fun error =>
       console_error
         (String.append "Error deleting task with ID " (String.append taskId ":"))
         error ;;
       throw error).

End Client.

(** ** Method calls *)

(** A call of one of the six public methods, with its arguments. *)
Inductive Call : Type :=
| Ping
| RetrieveAll (source source_id : option string)
| RetrieveSingle (taskId : string)
| CreateTask (taskParams : Js.value)
| UpdateTask (taskId : string) (taskParams : Js.value)
| DeleteTask (taskId : string).

Definition invoke (network : list Request -> Request -> Outcome) (c : Call)
  : Async Js.value :=
  match c with
  | Ping => ping network
  | RetrieveAll source source_id => retrieveAll network source source_id
  | RetrieveSingle taskId => retrieveSingle network taskId
  | CreateTask taskParams => createTask network taskParams
  | UpdateTask taskId taskParams => updateTask network taskId taskParams
  | DeleteTask taskId => deleteTask network taskId
  end.

(** The calls whose [catch] block ends in [throw error]. *)
Definition propagates (c : Call) : bool :=
  match c with
  | Ping => false
  | _ => true
  end.

(** The calls that return [response.data.task]. *)
Definition returns_task (c : Call) : bool :=
  match c with
  | RetrieveSingle _ | CreateTask _ | UpdateTask _ _ | DeleteTask _ => true
  | Ping | RetrieveAll _ _ => false
  end.

(** Calls made one after the other on the same client. *)
Fixpoint run (network : list Request -> Request -> Outcome) (cs : list Call)
    (w : World) : World :=
  match cs with
  | [] => w
  | c :: rest => run network rest (snd (invoke network c w))
  end.

(** Whether a response body is an object with an own property [key]. *)
Definition has_field (v : Js.value) (key : string) : bool :=
  match v with
  | Js.Object fields => existsb (fun kv => String.eqb (fst kv) key) fields
  | _ => false
  end.

(** A server that answers every request with status 200 and body [d]. *)
Definition always_ok (d : Js.value) : list Request -> Request -> Outcome :=
  fun _ _ => Resolved (mkResponse 200 d).

(** A server (or a link) that fails every request with [e]. *)
Definition always_fails (e : Js.value) : list Request -> Request -> Outcome :=
  fun _ _ => Rejected (Js.Rejection e).

(** ** Describing a call

    The request, the envelope field and the console message of each call,
    gathered from the method bodies; [invoke_propagating] and [invoke_ping]
    below prove that the methods do exactly this. *)

(** The request a call builds from the fields of [this] and its arguments. *)
Definition request_of (api : LunataskAPI) (c : Call) : Request :=
  let auth := ("Authorization", bearer (accessToken api)) in
  let json := ("Content-Type", "application/json") in
  let task_url id := String.append (baseUrl api) (String.append "/tasks/" id) in
  match c with
  | Ping =>
      mkRequest GET (String.append (baseUrl api) "/ping") [auth] None None
  | RetrieveAll source source_id =>
      let add key arg ps :=
        match arg with
        | Some s => if String.eqb s "" then ps else Js.set key s ps
        | None => ps
        end in
      mkRequest GET (String.append (baseUrl api) "/tasks") [auth]
        (Some (add "source_id" source_id (add "source" source []))) None
  | RetrieveSingle taskId => mkRequest GET (task_url taskId) [auth] None None
  | CreateTask taskParams =>
      mkRequest POST (String.append (baseUrl api) "/tasks") [auth; json] None
        (Some taskParams)
  | UpdateTask taskId taskParams =>
      mkRequest PUT (task_url taskId) [auth; json] None (Some taskParams)
  | DeleteTask taskId => mkRequest DELETE (task_url taskId) [auth] None None
  end.

(** The field of the response envelope a propagating call returns. *)
Definition envelope_key (c : Call) : string :=
  match c with
  | RetrieveAll _ _ => "tasks"
  | _ => "task"
  end.

(** The first argument of [console.error] in the [catch] block of a call. *)
Definition failure_message (c : Call) : string :=
  match c with
  | Ping => "Authentication failed:"
  | RetrieveAll _ _ => "Error retrieving tasks:"
  | RetrieveSingle taskId =>
      String.append "Error retrieving task with ID " (String.append taskId ":")
  | CreateTask _ => "Error creating task:"
  | UpdateTask taskId _ =>
      String.append "Error updating task with ID " (String.append taskId ":")
  | DeleteTask taskId =>
      String.append "Error deleting task with ID " (String.append taskId ":")
  end.

Definition after_request (w : World) (r : Request) : World :=
  {| this := this w; sent := sent w ++ [r]; console := console w |}.

Definition after_failure (w : World) (r : Request) (msg : string)
    (e : Js.thrown) : World :=
  {| this := this w;
     sent := sent w ++ [r];
     console := console w ++ [mkLogEntry msg e] |}.

(** The task identifier a call addresses, if any. *)
Definition task_id_of (c : Call) : option string :=
  match c with
  | RetrieveSingle taskId | UpdateTask taskId _ | DeleteTask taskId => Some taskId
  | Ping | RetrieveAll _ _ | CreateTask _ => None
  end.

(** ** The task data shapes

    The interfaces of the type declarations, with the values the enums have
    on the wire.  They are erased at run time: the client neither builds nor
    checks a [Task], it hands on what the server sent. *)

Module Types.

Inductive TaskStatus : Type := Later | Next | Started | Waiting | Completed.

Definition TaskStatus_value (s : TaskStatus) : string :=
  match s with
  | Later => "later"
  | Next => "next"
  | Started => "started"
  | Waiting => "waiting"
  | Completed => "completed"
  end.

Inductive TaskPriority : Type := Highest | High | Normal | Low | Lowest.

Definition TaskPriority_value (p : TaskPriority) : Z :=
  match p with
  | Highest => 2
  | High => 1
  | Normal => 0
  | Low => -1
  | Lowest => -2
  end.

Inductive TaskMotivation : Type := Must | Should | Want | Unknown.

Definition TaskMotivation_value (m : TaskMotivation) : string :=
  match m with
  | Must => "must"
  | Should => "should"
  | Want => "want"
  | Unknown => "unknown"
  end.

Inductive TaskEisenhower : Type :=
| UrgentImportant
| UrgentNotImportant
| ImportantNotUrgent
| NotUrgentOrImportant
| Uncategorized.

Definition TaskEisenhower_value (e : TaskEisenhower) : Z :=
  match e with
  | UrgentImportant => 1
  | UrgentNotImportant => 2
  | ImportantNotUrgent => 3
  | NotUrgentOrImportant => 4
  | Uncategorized => 0
  end.

Record ExternalSource : Type := mkExternalSource {
  source : string;
  source_id : string
}.

(** [goal_id: string | null] is an [option]; an optional member [f?: T] is an
    [option] that is [None] when the member is absent; [f?: string | null]
    has both layers. *)
Record Task : Type := mkTask {
  id : string;
  area_id : string;
  goal_id : option string;
  status : TaskStatus;
  previous_status : option TaskStatus;
  estimate : option Z;
  priority : TaskPriority;
  motivation : TaskMotivation;
  eisenhower : TaskEisenhower;
  sources : list ExternalSource;
  scheduled_on : option (option string);
  completed_at : option (option string);
  created_at : string;
  updated_at : string;
  deleted_at : option (option string)
}.

Definition nullable (o : option string) : Js.value :=
  match o with
  | Some s => Js.Str s
  | None => Js.Null
  end.

Definition member {A} (key : string) (f : A -> Js.value) (o : option A)
  : list (string * Js.value) :=
  match o with
  | Some a => [(key, f a)]
  | None => []
  end.

Definition ExternalSource_value (e : ExternalSource) : Js.value :=
  Js.Object [("source", Js.Str (source e)); ("source_id", Js.Str (source_id e))].

(** The object a [Task] is at run time. *)
Definition Task_value (t : Task) : Js.value :=
  Js.Object
    ([("id", Js.Str (id t));
      ("area_id", Js.Str (area_id t));
      ("goal_id", nullable (goal_id t));
      ("status", Js.Str (TaskStatus_value (status t)))]
     ++ member "previous_status" (fun s => Js.Str (TaskStatus_value s)) (previous_status t)
     ++ member "estimate" Js.Number (estimate t)
     ++ [("priority", Js.Number (TaskPriority_value (priority t)));
         ("motivation", Js.Str (TaskMotivation_value (motivation t)));
         ("eisenhower", Js.Number (TaskEisenhower_value (eisenhower t)));
         ("sources", Js.Array (map ExternalSource_value (sources t)))]
     ++ member "scheduled_on" nullable (scheduled_on t)
     ++ member "completed_at" nullable (completed_at t)
     ++ [("created_at", Js.Str (created_at t));
         ("updated_at", Js.Str (updated_at t))]
     ++ member "deleted_at" nullable (deleted_at t)).

(** [new TaskEntity(taskData)]: [Object.assign(this, taskData)] copies every
    member. *)
Definition new_TaskEntity (taskData : Task) : Task :=
  {| id := id taskData;
     area_id := area_id taskData;
     goal_id := goal_id taskData;
     status := status taskData;
     previous_status := previous_status taskData;
     estimate := estimate taskData;
     priority := priority taskData;
     motivation := motivation taskData;
     eisenhower := eisenhower taskData;
     sources := sources taskData;
     scheduled_on := scheduled_on taskData;
     completed_at := completed_at taskData;
     created_at := created_at taskData;
     updated_at := updated_at taskData;
     deleted_at := deleted_at taskData |}.

End Types.

(** ** Comparing servers *)


(** ** Proof automation *)

Ltac unfold_client :=
  unfold invoke, ping, retrieveAll, retrieveSingle, createTask, updateTask,
    deleteTask, try_catch, bind, axios_get, axios_post, axios_put,
    axios_delete, axios, this_field, console_error, ret, throw in *.

Ltac settle_network :=
  match goal with
  | |- context [match ?n (sent ?w) ?r with Resolved _ => _ | Rejected _ => _ end] =>
      let o := fresh "o" in
      let Ho := fresh "Ho" in
      destruct (n (sent w) r) as [o | o] eqn:Ho
  end.

Ltac settle_body :=
  match goal with
  | |- context [prop (data ?resp) ?k] =>
      let d := fresh "d" in
      let Hd := fresh "Hd" in
      unfold prop, ret, throw; destruct (data resp) as [ | | ? | ? | ? | ? | ?] eqn:Hd
  end.

(** ** What one call does

    The lemmas of this part describe a call completely: the request it hands
    to axios, the value it completes with, and what it leaves in the world.
    The theorems further down are read off from them. *)

Lemma truthy_nonempty (s : string) :
  Js.truthy (Js.Str s) = negb (String.eqb s "").
Proof. reflexivity. Qed.

(** A propagating call: one request; the envelope field on success; on any
    failure one console line and the caught value thrown again. *)
Lemma invoke_propagating (network : list Request -> Request -> Outcome)
    (c : Call) (w : World) :
  propagates c = true ->
  invoke network c w =
    let r := request_of (this w) c in
    match network (sent w) r with
    | Rejected e => (Abrupt e, after_failure w r (failure_message c) e)
    | Resolved response =>
        match Js.get (data response) (envelope_key c) with
        | inl v => (Normal v, after_request w r)
        | inr e => (Abrupt e, after_failure w r (failure_message c) e)
        end
    end.
Proof.
  intros Hc. destruct c; try discriminate Hc; clear Hc;
    unfold_client; unfold request_of; cbn -[String.append String.eqb];
    repeat match goal with
      | |- context [Js.truthy (Js.Str ?s)] => rewrite (truthy_nonempty s)
      end.
  - destruct source as [s1|], source_id as [s2|]; cbn -[String.append String.eqb];
      repeat match goal with
        | |- context [negb (String.eqb ?s "")] => destruct (String.eqb s "")
        end; cbn -[String.append String.eqb];
      settle_network; cbn; try reflexivity; settle_body; reflexivity.
  - settle_network; cbn; try reflexivity; settle_body; reflexivity.
  - settle_network; cbn; try reflexivity; settle_body; reflexivity.
  - settle_network; cbn; try reflexivity; settle_body; reflexivity.
  - settle_network; cbn; try reflexivity; settle_body; reflexivity.
Qed.

(** [ping]: one request; every failure becomes the boolean [false] after
    one console line; a falsy body is returned as it is. *)
Lemma invoke_ping (network : list Request -> Request -> Outcome) (w : World) :
  ping network w =
    let r := request_of (this w) Ping in
    match network (sent w) r with
    | Rejected e =>
        (Normal (Js.Bool false), after_failure w r "Authentication failed:" e)
    | Resolved response =>
        if Js.truthy (data response)
        then match Js.get (data response) "message" with
             | inl m => (Normal (Js.Bool (Js.strict_eq_str m "pong")),
                         after_request w r)
             | inr e => (Normal (Js.Bool false),
                         after_failure w r "Authentication failed:" e)
             end
        else (Normal (data response), after_request w r)
    end.
Proof.
  unfold_client; unfold request_of; cbn -[String.append].
  settle_network; cbn -[String.append]; try reflexivity.
  destruct (Js.truthy (data o)) eqn:Ht; try reflexivity.
  settle_body; try discriminate Ht; reflexivity.
Qed.

(** Every call hands exactly [request_of] to axios. *)
Lemma invoke_sent (network : list Request -> Request -> Outcome)
    (c : Call) (w : World) :
  sent (snd (invoke network c w)) = sent w ++ [request_of (this w) c].
Proof.
  destruct (propagates c) eqn:Hc.
  - rewrite (invoke_propagating network c w Hc); cbv zeta.
    destruct (network _ _); [destruct (Js.get _ _)|]; reflexivity.
  - destruct c; try discriminate Hc. cbn [invoke].
    rewrite invoke_ping; cbv zeta.
    destruct (network _ _); [|reflexivity].
    destruct (Js.truthy _); [destruct (Js.get _ _)|]; reflexivity.
Qed.

(** No call assigns to a field of [this]. *)
Lemma invoke_this (network : list Request -> Request -> Outcome)
    (c : Call) (w : World) :
  this (snd (invoke network c w)) = this w.
Proof.
  destruct (propagates c) eqn:Hc.
  - rewrite (invoke_propagating network c w Hc); cbv zeta.
    destruct (network _ _); [destruct (Js.get _ _)|]; reflexivity.
  - destruct c; try discriminate Hc. cbn [invoke].
    rewrite invoke_ping; cbv zeta.
    destruct (network _ _); [|reflexivity].
    destruct (Js.truthy _); [destruct (Js.get _ _)|]; reflexivity.
Qed.

(** ** The health check *)

(** X1.  [ping] never throws, whatever axios does. *)
Lemma ping_never_throws (network : list Request -> Request -> Outcome)
    (w : World) :
  exists v, fst (ping network w) = Normal v.
Proof.
  rewrite invoke_ping; cbv zeta.
  destruct (network _ _); [|cbn; eauto].
  destruct (Js.truthy _); [destruct (Js.get _ _)|]; cbn; eauto.
Qed.

(** A rejected request (transport error, status outside 2xx) gives the
    boolean [false] and one console line. *)
Lemma ping_rejected_is_false (network : list Request -> Request -> Outcome)
    (w : World) (e : Js.thrown) :
  network (sent w) (request_of (this w) Ping) = Rejected e ->
  ping network w =
    (Normal (Js.Bool false),
     after_failure w (request_of (this w) Ping) "Authentication failed:" e).
Proof. intros H. rewrite invoke_ping; cbv zeta. now rewrite H. Qed.

(** X2.  [ping] gives the boolean [true] exactly when the request resolved and
    [response.data.message] is the string [pong]. *)
Lemma ping_true_iff_pong (network : list Request -> Request -> Outcome)
    (w : World) :
  fst (ping network w) = Normal (Js.Bool true) <->
  exists response,
    network (sent w) (request_of (this w) Ping) = Resolved response /\
    Js.get (data response) "message" = inl (Js.Str "pong").
Proof.
  rewrite invoke_ping; cbv zeta.
  destruct (network _ _) as [response | e]; cbn.
  - destruct (Js.truthy (data response)) eqn:Ht.
    + destruct (Js.get (data response) "message") as [m | e] eqn:Hm; cbn.
      * split.
        -- intros H. exists response. split; [reflexivity|].
           destruct m; cbn in H; try discriminate H.
           injection H as H. apply String.eqb_eq in H. now subst.
        -- intros [r' [Hr Hg]]. injection Hr as <-.
           rewrite Hm in Hg. injection Hg as ->. reflexivity.
      * split; [discriminate|].
        intros [r' [Hr Hg]]. injection Hr as <-. congruence.
    + split.
      * cbn. intros H. injection H as H. rewrite H in Ht. discriminate Ht.
      * intros [r' [Hr Hg]]. injection Hr as <-.
        destruct (data response); cbn in *; discriminate.
  - split; [discriminate|]. intros [r' [Hr _]]. discriminate Hr.
Qed.

(** C1 (defect).  The claim: whenever the body is not one whose message is
    [pong], [ping] returns the boolean [false].  The code returns
    [response.data && ...], so a 2xx response with a falsy body makes the
    method return that body: [null] for the JSON body [null], the empty
    string for an empty body.  Neither is the boolean [false] that the
    declared return type [Promise<boolean>] promises. *)
Theorem ping_falsy_body_is_returned :
  fst (ping (always_ok Js.Null) (initial_world "token")) = Normal Js.Null /\
  fst (ping (always_ok (Js.Str "")) (initial_world "token")) = Normal (Js.Str "") /\
  Js.Null <> Js.Bool false /\
  Js.Str "" <> Js.Bool false.
Proof. repeat split; try reflexivity; discriminate. Qed.

(** ** Listing tasks: the query parameters *)

(** C2 (counterexample).  The claim: a provided [source] is sent as the query
    parameter [source].  With [retrieveAll("", "123")] the first argument is
    provided, yet the request carries [source_id] only: the guard
    [if (source)] tests truthiness and the empty string is falsy. *)
Lemma retrieveAll_empty_source_is_dropped :
  exists r,
    sent (snd (retrieveAll (always_ok (Js.Object [("tasks", Js.Array [])]))
                 (Some "") (Some "123") (initial_world "token"))) = [r] /\
    params r = Some [("source_id", "123")] /\
    forall v, ~ In ("source", v) [("source_id", "123")].
Proof.
  eexists. split; [reflexivity|]. split; [reflexivity|].
  intros v [H | []]. discriminate H.
Qed.

(** C2 (amended).  [retrieveAll] issues one GET with a [params] object in
    which [source] is present, with the argument's value, exactly when the
    [source] argument is a non-empty string, and [source_id] is present
    exactly when the [source_id] argument is a non-empty string; an absent
    or empty argument leaves its parameter out.  The two arguments are
    treated independently, and no other parameter is sent. *)
Theorem retrieveAll_query_parameters
    (network : list Request -> Request -> Outcome)
    (source source_id : option string) (w : World) :
  exists r ps,
    sent (snd (retrieveAll network source source_id w)) = sent w ++ [r] /\
    method r = GET /\
    params r = Some ps /\
    (forall s, source = Some s -> s <> "" -> In ("source", s) ps) /\
    (forall s, source_id = Some s -> s <> "" -> In ("source_id", s) ps) /\
    (source = None \/ source = Some "" -> forall v, ~ In ("source", v) ps) /\
    (source_id = None \/ source_id = Some "" ->
       forall v, ~ In ("source_id", v) ps) /\
    (forall k v, In (k, v) ps ->
       (k = "source" /\ source = Some v) \/ (k = "source_id" /\ source_id = Some v)).
Proof.
  eexists. eexists.
  split; [exact (invoke_sent network (RetrieveAll source source_id) w)|].
  split; [reflexivity|]. split; [reflexivity|].
  destruct source as [s1|], source_id as [s2|];
    repeat match goal with
      | |- context [String.eqb ?s ""] => destruct (String.eqb_spec s ""); subst
      end; cbn;
    repeat split; intros;
    repeat match goal with
      | H : _ \/ _ |- _ => destruct H
      | H : Some _ = Some _ |- _ => injection H as H; subst
      | H : (_, _) = (_, _) |- _ => injection H as ? ?; subst
      | H : False |- _ => destruct H
      end;
    try discriminate; try congruence; auto;
    try (intros [Hk | []]; discriminate Hk).
Qed.

(** [listTasks("todoist", "123")] sends both parameters, in this order. *)
Lemma retrieveAll_query_parameters_witness :
  exists r ps,
    sent (snd (retrieveAll (always_ok (Js.Object [("tasks", Js.Array [])]))
                 (Some "todoist") (Some "123") (initial_world "token")))
      = sent (initial_world "token") ++ [r] /\
    method r = GET /\
    params r = Some ps /\
    In ("source", "todoist") ps /\
    In ("source_id", "123") ps.
Proof.
  destruct (retrieveAll_query_parameters
              (always_ok (Js.Object [("tasks", Js.Array [])]))
              (Some "todoist") (Some "123") (initial_world "token"))
    as [r [ps [Hs [Hm [Hp [H1 [H2 _]]]]]]].
  exists r, ps. repeat split; try assumption.
  - apply H1; [reflexivity | discriminate].
  - apply H2; [reflexivity | discriminate].
Defined.

(** ** Failures of the propagating calls *)

(** C3.  For [retrieveAll], [retrieveSingle], [createTask], [updateTask] and
    [deleteTask]: when axios rejects with [e], the call writes one line to
    the console and completes by throwing that same [e]; more generally,
    whatever value the call throws is the one it logged (this covers the
    TypeError of reading a field of a [null] body), and a call that returns
    normally logs nothing. *)
Theorem propagating_calls_log_and_rethrow
    (network : list Request -> Request -> Outcome) (c : Call) (w : World) :
  propagates c = true ->
  exists r,
    sent (snd (invoke network c w)) = sent w ++ [r] /\
    (forall e, network (sent w) r = Rejected e ->
       fst (invoke network c w) = Abrupt e /\
       exists msg,
         console (snd (invoke network c w)) = console w ++ [mkLogEntry msg e]) /\
    (forall e, fst (invoke network c w) = Abrupt e ->
       exists msg,
         console (snd (invoke network c w)) = console w ++ [mkLogEntry msg e]) /\
    (forall v, fst (invoke network c w) = Normal v ->
       console (snd (invoke network c w)) = console w).
Proof.
  intros Hc. exists (request_of (this w) c).
  rewrite (invoke_propagating network c w Hc); cbv zeta.
  destruct (network (sent w) (request_of (this w) c)) as [response | e0].
  - destruct (Js.get (data response) (envelope_key c)) as [v0 | e0]; cbn.
    + split; [reflexivity|]. split; [discriminate|]. split; [discriminate|].
      reflexivity.
    + split; [reflexivity|]. split; [discriminate|]. split; [|discriminate].
      intros e He. injection He as <-. eauto.
  - cbn. split; [reflexivity|]. split; [|split; [|discriminate]].
    + intros e He. injection He as <-. eauto.
    + intros e He. injection He as <-. eauto.
Qed.

Lemma propagating_calls_log_and_rethrow_witness :
  propagates (DeleteTask "42") = true /\
  fst (invoke (always_fails (Js.Str "Request failed with status code 404"))
         (DeleteTask "42") (initial_world "token"))
    = Abrupt (Js.Rejection (Js.Str "Request failed with status code 404")) /\
  exists msg,
    console (snd (invoke (always_fails (Js.Str "Request failed with status code 404"))
                    (DeleteTask "42") (initial_world "token")))
      = console (initial_world "token") ++
        [mkLogEntry msg (Js.Rejection (Js.Str "Request failed with status code 404"))].
Proof.
  split; [reflexivity|].
  destruct (propagating_calls_log_and_rethrow
              (always_fails (Js.Str "Request failed with status code 404"))
              (DeleteTask "42") (initial_world "token") eq_refl)
    as [r [_ [Hrej _]]].
  apply Hrej. reflexivity.
Defined.

(** ** Results of the successful calls *)

(** C4.  For [retrieveSingle], [createTask], [updateTask] and [deleteTask]:
    a call that returns normally returns the [task] property of the body of
    the response axios resolved with, and whenever the body is an object the
    call does return normally, with the value bound to [task] in it. *)
Theorem task_calls_return_envelope_task
    (network : list Request -> Request -> Outcome) (c : Call) (w : World) :
  returns_task c = true ->
  exists r,
    sent (snd (invoke network c w)) = sent w ++ [r] /\
    (forall v, fst (invoke network c w) = Normal v ->
       exists response,
         network (sent w) r = Resolved response /\
         Js.get (data response) "task" = inl v) /\
    (forall response fields,
       network (sent w) r = Resolved response ->
       data response = Js.Object fields ->
       fst (invoke network c w) = Normal (Js.lookup "task" fields)).
Proof.
  intros Hc. exists (request_of (this w) c).
  assert (Hp : propagates c = true) by (destruct c; try discriminate Hc; reflexivity).
  assert (Hk : envelope_key c = "task") by (destruct c; try discriminate Hc; reflexivity).
  rewrite (invoke_propagating network c w Hp); cbv zeta. rewrite Hk.
  destruct (network (sent w) (request_of (this w) c)) as [response | e0].
  - destruct (Js.get (data response) "task") as [v0 | e0] eqn:Hg; cbn.
    + repeat split.
      * intros v Hv. injection Hv as <-. eauto.
      * intros r' fields Hr Hd. injection Hr as <-.
        rewrite Hd in Hg. cbn in Hg. congruence.
    + repeat split; try discriminate.
      intros r' fields Hr Hd. injection Hr as <-.
      rewrite Hd in Hg. discriminate Hg.
  - cbn. repeat split; discriminate.
Qed.

Lemma task_calls_return_envelope_task_witness :
  returns_task (CreateTask (Js.Object [("area_id", Js.Str "A1")])) = true /\
  fst (invoke
         (always_ok (Js.Object
            [("task", Js.Object [("id", Js.Str "T1");
                                 ("area_id", Js.Str "A1");
                                 ("created_at", Js.Str "2024-01-01T00:00:00Z");
                                 ("updated_at", Js.Str "2024-01-01T00:00:00Z")])]))
         (CreateTask (Js.Object [("area_id", Js.Str "A1")]))
         (initial_world "token"))
    = Normal (Js.Object [("id", Js.Str "T1");
                         ("area_id", Js.Str "A1");
                         ("created_at", Js.Str "2024-01-01T00:00:00Z");
                         ("updated_at", Js.Str "2024-01-01T00:00:00Z")]).
Proof.
  split; [reflexivity|].
  destruct (task_calls_return_envelope_task
              (always_ok (Js.Object
                 [("task", Js.Object [("id", Js.Str "T1");
                                      ("area_id", Js.Str "A1");
                                      ("created_at", Js.Str "2024-01-01T00:00:00Z");
                                      ("updated_at", Js.Str "2024-01-01T00:00:00Z")])]))
              (CreateTask (Js.Object [("area_id", Js.Str "A1")]))
              (initial_world "token") eq_refl)
    as [r [_ [_ Hobj]]].
  exact (Hobj _ _ eq_refl eq_refl).
Defined.

(** For a well-typed server: when the envelope holds the object of a [Task],
    the call returns that object, and the identifier and timestamps the
    server assigned can be read from it. *)
Lemma task_calls_return_server_task
    (network : list Request -> Request -> Outcome) (c : Call) (w : World)
    (st : Z) (t : Types.Task) :
  returns_task c = true ->
  network (sent w) (request_of (this w) c)
    = Resolved (mkResponse st (Js.Object [("task", Types.Task_value t)])) ->
  fst (invoke network c w) = Normal (Types.Task_value t).
Proof.
  intros Hc Hn.
  assert (Hp : propagates c = true) by (destruct c; try discriminate Hc; reflexivity).
  assert (Hk : envelope_key c = "task") by (destruct c; try discriminate Hc; reflexivity).
  rewrite (invoke_propagating network c w Hp); cbv zeta.
  rewrite Hn, Hk. reflexivity.
Qed.

Lemma Task_value_server_fields (t : Types.Task) :
  Js.get (Types.Task_value t) "id" = inl (Js.Str (Types.id t)) /\
  Js.get (Types.Task_value t) "created_at" = inl (Js.Str (Types.created_at t)) /\
  Js.get (Types.Task_value t) "updated_at" = inl (Js.Str (Types.updated_at t)).
Proof.
  destruct t as [i a g s ps es p m e srcs so ca cr up de]; cbn.
  destruct ps, es, so, ca; cbn; repeat split; reflexivity.
Qed.

Lemma new_TaskEntity_copies (t : Types.Task) : Types.new_TaskEntity t = t.
Proof. destruct t; reflexivity. Qed.

(** C5.  A [retrieveAll] that returns normally returns the [tasks] property
    of the body of the response axios resolved with; when that property is
    an array the result is that array, element for element and in the same
    order. *)
Theorem retrieveAll_returns_envelope_tasks
    (network : list Request -> Request -> Outcome)
    (source source_id : option string) (w : World) :
  exists r,
    sent (snd (retrieveAll network source source_id w)) = sent w ++ [r] /\
    (forall v, fst (retrieveAll network source source_id w) = Normal v ->
       exists response,
         network (sent w) r = Resolved response /\
         Js.get (data response) "tasks" = inl v) /\
    (forall response fields items,
       network (sent w) r = Resolved response ->
       data response = Js.Object fields ->
       Js.lookup "tasks" fields = Js.Array items ->
       fst (retrieveAll network source source_id w) = Normal (Js.Array items)).
Proof.
  exists (request_of (this w) (RetrieveAll source source_id)).
  change (retrieveAll network source source_id w)
    with (invoke network (RetrieveAll source source_id) w).
  rewrite (invoke_propagating network (RetrieveAll source source_id) w eq_refl);
    cbv zeta. cbn [envelope_key].
  destruct (network (sent w) (request_of (this w) (RetrieveAll source source_id)))
    as [response | e0].
  - destruct (Js.get (data response) "tasks") as [v0 | e0] eqn:Hg; cbn.
    + repeat split.
      * intros v Hv. injection Hv as <-. eauto.
      * intros r' fields items Hr Hd Hl. injection Hr as <-.
        rewrite Hd in Hg. cbn in Hg. congruence.
    + repeat split; try discriminate.
      intros r' fields items Hr Hd. injection Hr as <-.
      rewrite Hd in Hg. discriminate Hg.
  - cbn. repeat split; discriminate.
Qed.

Lemma retrieveAll_returns_envelope_tasks_witness :
  fst (retrieveAll
         (always_ok (Js.Object
            [("tasks", Js.Array [Js.Object [("id", Js.Str "b")];
                                 Js.Object [("id", Js.Str "a")];
                                 Js.Object [("id", Js.Str "b")]])]))
         None None (initial_world "token"))
    = Normal (Js.Array [Js.Object [("id", Js.Str "b")];
                        Js.Object [("id", Js.Str "a")];
                        Js.Object [("id", Js.Str "b")]]).
Proof.
  destruct (retrieveAll_returns_envelope_tasks
              (always_ok (Js.Object
                 [("tasks", Js.Array [Js.Object [("id", Js.Str "b")];
                                      Js.Object [("id", Js.Str "a")];
                                      Js.Object [("id", Js.Str "b")]])]))
              None None (initial_world "token"))
    as [r [_ [_ Harr]]].
  exact (Harr _ _ _ eq_refl eq_refl eq_refl).
Defined.

(** ** Headers *)

(** C6 (counterexample).  The claim: every write request, [deleteTask]'s
    DELETE included, carries [Content-Type: application/json].  The DELETE
    built by [deleteTask] has the [Authorization] header only. *)
Lemma deleteTask_sends_no_content_type :
  exists r,
    sent (snd (deleteTask (always_ok (Js.Object [("task", Js.Object [])]))
                 "42" (initial_world "token"))) = [r] /\
    method r = DELETE /\
    headers r = [("Authorization", "bearer token")] /\
    forall v, ~ In ("Content-Type", v) (headers r).
Proof.
  eexists. split; [reflexivity|]. repeat split.
  intros v [H | []]. discriminate H.
Qed.

(** C6 (amended).  On a client constructed with [token], every call issues a
    request with the header [Authorization: bearer <token>]; the two
    requests that carry a body, [createTask]'s POST and [updateTask]'s PUT,
    also carry [Content-Type: application/json]; the other four, among them
    [deleteTask]'s DELETE, carry no [Content-Type] header. *)
Theorem requests_carry_bearer_token
    (network : list Request -> Request -> Outcome) (token : string)
    (c : Call) (w : World) :
  this w = new_LunataskAPI token ->
  exists r,
    sent (snd (invoke network c w)) = sent w ++ [r] /\
    In ("Authorization", String.append "bearer " token) (headers r) /\
    match c with
    | CreateTask taskParams =>
        method r = POST /\ body r = Some taskParams /\
        In ("Content-Type", "application/json") (headers r)
    | UpdateTask _ taskParams =>
        method r = PUT /\ body r = Some taskParams /\
        In ("Content-Type", "application/json") (headers r)
    | DeleteTask _ =>
        method r = DELETE /\ body r = None /\
        forall v, ~ In ("Content-Type", v) (headers r)
    | Ping | RetrieveAll _ _ | RetrieveSingle _ =>
        method r = GET /\ body r = None /\
        forall v, ~ In ("Content-Type", v) (headers r)
    end.
Proof.
  intros Hthis. exists (request_of (this w) c).
  split; [apply invoke_sent|]. rewrite Hthis.
  destruct c; cbn -[String.append]; unfold bearer;
    (split; [now left|]); repeat split; auto;
    try (intros v [H | []]; discriminate H).
Qed.

Lemma requests_carry_bearer_token_witness :
  this (initial_world "s3cret") = new_LunataskAPI "s3cret" /\
  exists r,
    sent (snd (invoke (always_ok (Js.Object [("task", Js.Object [])]))
                 (UpdateTask "42" (Js.Object [("name", Js.Str "x")]))
                 (initial_world "s3cret")))
      = sent (initial_world "s3cret") ++ [r] /\
    In ("Authorization", String.append "bearer " "s3cret") (headers r) /\
    method r = PUT /\ body r = Some (Js.Object [("name", Js.Str "x")]) /\
    In ("Content-Type", "application/json") (headers r).
Proof.
  split; [reflexivity|].
  exact (requests_carry_bearer_token
           (always_ok (Js.Object [("task", Js.Object [])])) "s3cret"
           (UpdateTask "42" (Js.Object [("name", Js.Str "x")]))
           (initial_world "s3cret") eq_refl).
Defined.

(** ** Statelessness *)

Lemma run_this (network : list Request -> Request -> Outcome)
    (cs : list Call) (w : World) :
  this (run network cs w) = this w.
Proof.
  revert w. induction cs as [| c cs IH]; intros w; cbn [run].
  - reflexivity.
  - rewrite IH. apply invoke_this.
Qed.

(** C7.  The constructor fixes [baseUrl] and [accessToken]; no call, and so
    no sequence of calls, changes a field of the client; and on a client
    constructed with [token] the request a call issues is the same whatever
    the server answers and whatever calls were made before: it is determined
    by the call's arguments and [token]. *)
Theorem client_is_stateless (token : string) :
  baseUrl (new_LunataskAPI token) = "https://api.lunatask.app/v1" /\
  accessToken (new_LunataskAPI token) = token /\
  (forall network c w, this (snd (invoke network c w)) = this w) /\
  (forall network cs w, this (run network cs w) = this w) /\
  (forall network1 network2 before1 before2 c,
     exists r,
       sent (snd (invoke network1 c (run network1 before1 (initial_world token))))
         = sent (run network1 before1 (initial_world token)) ++ [r] /\
       sent (snd (invoke network2 c (run network2 before2 (initial_world token))))
         = sent (run network2 before2 (initial_world token)) ++ [r]).
Proof.
  split; [reflexivity|]. split; [reflexivity|].
  split; [exact invoke_this|]. split; [exact run_this|].
  intros network1 network2 before1 before2 c.
  exists (request_of (new_LunataskAPI token) c).
  rewrite !invoke_sent, !run_this. split; reflexivity.
Qed.

(** ** One call, one request *)

Lemma run_sent_length (network : list Request -> Request -> Outcome)
    (cs : list Call) (w : World) :
  length (sent (run network cs w)) = length (sent w) + length cs.
Proof.
  revert w. induction cs as [| c cs IH]; intros w; cbn [run length].
  - now rewrite Nat.add_0_r.
  - rewrite IH, invoke_sent, length_app. cbn [length].
    rewrite <- Nat.add_assoc. reflexivity.
Qed.

(** C8.  Every call, whether axios resolves or rejects and whatever the
    body is, adds exactly one request to those handed to axios; a sequence
    of [n] calls adds exactly [n]. *)
Theorem one_call_one_request
    (network : list Request -> Request -> Outcome) :
  (forall c w, exists r, sent (snd (invoke network c w)) = sent w ++ [r]) /\
  (forall c w,
     length (sent (snd (invoke network c w))) = S (length (sent w))) /\
  (forall cs w,
     length (sent (run network cs w)) = length (sent w) + length cs).
Proof.
  split; [|split].
  - intros c w. eexists. apply invoke_sent.
  - intros c w. rewrite invoke_sent, length_app. cbn [length].
    now rewrite Nat.add_1_r.
  - apply run_sent_length.
Qed.

(** ** Envelopes without the expected field *)

Lemma lookup_absent (key : string) (fields : list (string * Js.value)) :
  existsb (fun kv => String.eqb (fst kv) key) fields = false ->
  Js.lookup key fields = Js.Undefined.
Proof.
  induction fields as [| [k v] rest IH]; cbn; intros H.
  - reflexivity.
  - destruct (String.eqb k key); [discriminate H | exact (IH H)].
Qed.

(** C9 (counterexample).  The claim: a 2xx body without a [tasks] field makes
    [retrieveAll] resolve with [undefined] rather than raise.  The JSON body
    [null] has no [tasks] field, and reading [response.data.tasks] from it
    raises a TypeError, which the [catch] block logs and throws again. *)
Lemma retrieveAll_null_body_throws :
  has_field Js.Null "tasks" = false /\
  retrieveAll (always_ok Js.Null) None None (initial_world "token") =
    (Abrupt (Js.TypeError Js.Null "tasks"),
     {| this := new_LunataskAPI "token";
        sent := [mkRequest GET "https://api.lunatask.app/v1/tasks"
                   [("Authorization", "bearer token")] (Some []) None];
        console := [mkLogEntry "Error retrieving tasks:"
                      (Js.TypeError Js.Null "tasks")] |}).
Proof. split; reflexivity. Qed.

(** C9 (amended).  When axios resolves a [retrieveAll] request with a body
    that has no [tasks] field and is neither [null] nor [undefined] (an
    object without that key, a string, a number, a boolean, an array), the
    call returns [undefined] and logs nothing: the envelope is not
    validated.  When the body is [null] or [undefined], the property read
    raises a TypeError, which is logged and thrown to the caller. *)
Theorem retrieveAll_missing_tasks_field
    (network : list Request -> Request -> Outcome)
    (source source_id : option string) (w : World) :
  exists r,
    sent (snd (retrieveAll network source source_id w)) = sent w ++ [r] /\
    (forall response,
       network (sent w) r = Resolved response ->
       has_field (data response) "tasks" = false ->
       data response <> Js.Null ->
       data response <> Js.Undefined ->
       fst (retrieveAll network source source_id w) = Normal Js.Undefined /\
       console (snd (retrieveAll network source source_id w)) = console w) /\
    (forall response,
       network (sent w) r = Resolved response ->
       data response = Js.Null \/ data response = Js.Undefined ->
       fst (retrieveAll network source source_id w)
         = Abrupt (Js.TypeError (data response) "tasks") /\
       console (snd (retrieveAll network source source_id w))
         = console w ++ [mkLogEntry "Error retrieving tasks:"
                           (Js.TypeError (data response) "tasks")]).
Proof.
  exists (request_of (this w) (RetrieveAll source source_id)).
  change (retrieveAll network source source_id w)
    with (invoke network (RetrieveAll source source_id) w).
  split; [apply invoke_sent|].
  rewrite (invoke_propagating network (RetrieveAll source source_id) w eq_refl);
    cbv zeta. cbn [envelope_key failure_message].
  split.
  - intros response Hr Hf Hnull Hundef. rewrite Hr.
    destruct (data response) as [ | | b | n | s | items | fields];
      try congruence; cbn; try (split; reflexivity).
    cbn in Hf. rewrite (lookup_absent _ _ Hf). split; reflexivity.
  - intros response Hr [Hd | Hd]; rewrite Hr, Hd; split; reflexivity.
Qed.

Lemma retrieveAll_missing_tasks_field_witness :
  fst (retrieveAll (always_ok (Js.Object [("message", Js.Str "ok")]))
         None None (initial_world "token")) = Normal Js.Undefined /\
  console (snd (retrieveAll (always_ok (Js.Object [("message", Js.Str "ok")]))
                  None None (initial_world "token")))
    = console (initial_world "token").
Proof.
  destruct (retrieveAll_missing_tasks_field
              (always_ok (Js.Object [("message", Js.Str "ok")]))
              None None (initial_world "token"))
    as [r [_ [Hmissing _]]].
  apply (Hmissing (mkResponse 200 (Js.Object [("message", Js.Str "ok")])));
    [reflexivity | reflexivity | discriminate | discriminate].
Defined.

(** ** Task URLs *)

(** C10.  [retrieveSingle], [updateTask] and [deleteTask] request the URL
    made of the base URL, the text [/tasks/] and the identifier as given:
    no character of the identifier is encoded or escaped. *)
Theorem task_url_is_plain_concatenation
    (network : list Request -> Request -> Outcome) (c : Call)
    (taskId : string) (w : World) :
  task_id_of c = Some taskId ->
  exists r,
    sent (snd (invoke network c w)) = sent w ++ [r] /\
    url r = String.append (baseUrl (this w)) (String.append "/tasks/" taskId).
Proof.
  intros Hc. exists (request_of (this w) c).
  split; [apply invoke_sent|].
  destruct c; try discriminate Hc; injection Hc as <-; reflexivity.
Qed.

(** An identifier with [/], [?] and [#] in it reaches the URL as it is, so
    the request goes to path [/v1/tasks/a/b] with query [c] and fragment
    [d]. *)
Lemma task_url_is_plain_concatenation_witness :
  task_id_of (DeleteTask "a/b?c#d") = Some "a/b?c#d" /\
  exists r,
    sent (snd (invoke (always_fails Js.Null) (DeleteTask "a/b?c#d")
                 (initial_world "token")))
      = sent (initial_world "token") ++ [r] /\
    url r = "https://api.lunatask.app/v1/tasks/a/b?c#d".
Proof.
  split; [reflexivity|].
  exact (task_url_is_plain_concatenation (always_fails Js.Null)
           (DeleteTask "a/b?c#d") "a/b?c#d" (initial_world "token") eq_refl).
Defined.

(** * Further properties of the client *)

(** ** The health check, continued *)

Lemma truthy_get (v : Js.value) (key : string) :
  Js.truthy v = true -> exists x, Js.get v key = inl x.
Proof. destruct v; cbn; intros H; try discriminate H; eauto. Qed.

(** X3.  Whatever [ping] returns is the boolean [true], the boolean [false], or
    the falsy body of a resolved response; so the result is truthy exactly
    when it is the boolean [true]. *)
Theorem ping_result_is_truthy_only_when_true
    (network : list Request -> Request -> Outcome) (w : World) (v : Js.value) :
  fst (ping network w) = Normal v ->
  (Js.truthy v = true <-> v = Js.Bool true) /\
  (v = Js.Bool true \/ v = Js.Bool false \/
   exists response,
     network (sent w) (mkRequest GET (String.append (baseUrl (this w)) "/ping")
                         [("Authorization",
                           String.append "bearer " (accessToken (this w)))]
                         None None)
       = Resolved response /\
     v = data response /\ Js.truthy v = false).
Proof.
  rewrite invoke_ping; cbv zeta. unfold request_of, bearer.
  destruct (network _ _) as [response | e]; cbn.
  - destruct (Js.truthy (data response)) eqn:Ht.
    + destruct (Js.get (data response) "message") as [m | e]; cbn;
        intros H; injection H as <-.
      * destruct (Js.strict_eq_str m "pong"); cbn; split;
          try (split; [discriminate | discriminate]); auto.
        split; reflexivity.
      * cbn. split; [split; discriminate | auto].
    + cbn. intros H. injection H as <-. split.
      * rewrite Ht. split; [discriminate|]. intros Hv. rewrite Hv in Ht.
        discriminate Ht.
      * right. right. exists response. auto.
  - intros H. injection H as <-. cbn. split; [split; discriminate | auto].
Qed.

Lemma ping_result_is_truthy_only_when_true_witness :
  fst (ping (always_ok (Js.Number 0)) (initial_world "token"))
    = Normal (Js.Number 0) /\
  (Js.truthy (Js.Number 0) = true <-> Js.Number 0 = Js.Bool true).
Proof.
  split; [reflexivity|].
  exact (proj1 (ping_result_is_truthy_only_when_true
                  (always_ok (Js.Number 0)) (initial_world "token")
                  (Js.Number 0) eq_refl)).
Defined.

(** X4.  [ping] writes to the console exactly when axios rejects: then one line,
    [Authentication failed:] with the rejection.  A resolved response never
    produces a line, whatever its body; a body without [pong] is reported to
    the caller only. *)
Theorem ping_logs_exactly_the_rejections
    (network : list Request -> Request -> Outcome) (w : World) :
  exists r,
    sent (snd (ping network w)) = sent w ++ [r] /\
    (forall e,
       network (sent w) r = Rejected e ->
       console (snd (ping network w))
         = console w ++ [mkLogEntry "Authentication failed:" e]) /\
    (forall response,
       network (sent w) r = Resolved response ->
       console (snd (ping network w)) = console w).
Proof.
  exists (request_of (this w) Ping).
  split; [exact (invoke_sent network Ping w)|].
  rewrite invoke_ping; cbv zeta.
  destruct (network (sent w) (request_of (this w) Ping)) as [response | e0].
  - split; [discriminate|]. intros r' _.
    destruct (Js.truthy (data response)) eqn:Ht; [|reflexivity].
    destruct (truthy_get _ "message" Ht) as [x Hx]. rewrite Hx. reflexivity.
  - split; [|discriminate]. intros e He. injection He as <-. reflexivity.
Qed.

Lemma ping_logs_exactly_the_rejections_witness :
  console (snd (ping (always_ok (Js.Object [("message", Js.Str "nope")]))
                  (initial_world "token")))
    = console (initial_world "token").
Proof.
  destruct (ping_logs_exactly_the_rejections
              (always_ok (Js.Object [("message", Js.Str "nope")]))
              (initial_world "token"))
    as [r [_ [_ Hres]]].
  exact (Hres (mkResponse 200 (Js.Object [("message", Js.Str "nope")])) eq_refl).
Defined.

(** ** Single-task envelopes without the expected field *)

(** X5.  For [retrieveSingle], [createTask], [updateTask] and [deleteTask]: a
    resolved body that is neither [null] nor [undefined] and has no [task]
    property makes the call return [undefined] without a console line (the
    envelope is not validated); a [null] or [undefined] body makes the
    property read raise a TypeError, which is logged once and thrown. *)
Theorem task_calls_missing_task_field
    (network : list Request -> Request -> Outcome) (c : Call) (w : World) :
  returns_task c = true ->
  exists r,
    sent (snd (invoke network c w)) = sent w ++ [r] /\
    (forall response,
       network (sent w) r = Resolved response ->
       has_field (data response) "task" = false ->
       data response <> Js.Null ->
       data response <> Js.Undefined ->
       fst (invoke network c w) = Normal Js.Undefined /\
       console (snd (invoke network c w)) = console w) /\
    (forall response,
       network (sent w) r = Resolved response ->
       data response = Js.Null \/ data response = Js.Undefined ->
       fst (invoke network c w) = Abrupt (Js.TypeError (data response) "task") /\
       exists msg,
         console (snd (invoke network c w))
           = console w ++ [mkLogEntry msg (Js.TypeError (data response) "task")]).
Proof.
  intros Hc. exists (request_of (this w) c).
  split; [apply invoke_sent|].
  assert (Hp : propagates c = true) by (destruct c; try discriminate Hc; reflexivity).
  assert (Hk : envelope_key c = "task") by (destruct c; try discriminate Hc; reflexivity).
  rewrite (invoke_propagating network c w Hp); cbv zeta. rewrite Hk.
  split.
  - intros response Hr Hf Hnull Hundef. rewrite Hr.
    destruct (data response) as [ | | b | n | s | items | fields];
      try congruence; cbn; try (split; reflexivity).
    cbn in Hf. rewrite (lookup_absent _ _ Hf). split; reflexivity.
  - intros response Hr [Hd | Hd]; rewrite Hr, Hd; cbn; split; eauto.
Qed.

Lemma task_calls_missing_task_field_witness :
  returns_task (RetrieveSingle "42") = true /\
  fst (invoke (always_ok (Js.Object [("tasks", Js.Array [])]))
         (RetrieveSingle "42") (initial_world "token")) = Normal Js.Undefined /\
  console (snd (invoke (always_ok (Js.Object [("tasks", Js.Array [])]))
                  (RetrieveSingle "42") (initial_world "token")))
    = console (initial_world "token").
Proof.
  split; [reflexivity|].
  destruct (task_calls_missing_task_field
              (always_ok (Js.Object [("tasks", Js.Array [])]))
              (RetrieveSingle "42") (initial_world "token") eq_refl)
    as [r [_ [Hmissing _]]].
  apply (Hmissing (mkResponse 200 (Js.Object [("tasks", Js.Array [])])));
    [reflexivity | reflexivity | discriminate | discriminate].
Defined.

(** ** Where the token travels *)

(** X6.  The same call on two clients built with different tokens issues
    requests that agree on the method, the URL, the query parameters, the
    body and every header other than [Authorization]: the token reaches the
    wire in that one header and nowhere else. *)
Theorem token_travels_only_in_authorization
    (network1 network2 : list Request -> Request -> Outcome)
    (token1 token2 : string) (c : Call) (w1 w2 : World) :
  this w1 = new_LunataskAPI token1 ->
  this w2 = new_LunataskAPI token2 ->
  exists r1 r2,
    sent (snd (invoke network1 c w1)) = sent w1 ++ [r1] /\
    sent (snd (invoke network2 c w2)) = sent w2 ++ [r2] /\
    method r1 = method r2 /\
    url r1 = url r2 /\
    params r1 = params r2 /\
    body r1 = body r2 /\
    map fst (headers r1) = map fst (headers r2) /\
    filter (fun h => negb (String.eqb (fst h) "Authorization")) (headers r1)
      = filter (fun h => negb (String.eqb (fst h) "Authorization")) (headers r2).
Proof.
  intros H1 H2.
  exists (request_of (this w1) c), (request_of (this w2) c).
  rewrite !invoke_sent, H1, H2.
  destruct c; cbn; repeat split; reflexivity.
Qed.

Lemma token_travels_only_in_authorization_witness :
  this (initial_world "alice") = new_LunataskAPI "alice" /\
  this (initial_world "bob") = new_LunataskAPI "bob" /\
  exists r1 r2,
    sent (snd (invoke (always_ok Js.Null)
                 (UpdateTask "42" (Js.Object [])) (initial_world "alice")))
      = sent (initial_world "alice") ++ [r1] /\
    sent (snd (invoke (always_fails Js.Null)
                 (UpdateTask "42" (Js.Object [])) (initial_world "bob")))
      = sent (initial_world "bob") ++ [r2] /\
    method r1 = method r2 /\
    url r1 = url r2 /\
    params r1 = params r2 /\
    body r1 = body r2 /\
    map fst (headers r1) = map fst (headers r2) /\
    filter (fun h => negb (String.eqb (fst h) "Authorization")) (headers r1)
      = filter (fun h => negb (String.eqb (fst h) "Authorization")) (headers r2).
Proof.
  split; [reflexivity|]. split; [reflexivity|].
  exact (token_travels_only_in_authorization
           (always_ok Js.Null) (always_fails Js.Null) "alice" "bob"
           (UpdateTask "42" (Js.Object []))
           (initial_world "alice") (initial_world "bob") eq_refl eq_refl).
Defined.

(** ** Sequences of calls *)

Lemma run_sent (network : list Request -> Request -> Outcome)
    (cs : list Call) (w : World) :
  sent (run network cs w) = sent w ++ map (request_of (this w)) cs.
Proof.
  revert w. induction cs as [| c cs IH]; intros w; cbn [run map].
  - now rewrite app_nil_r.
  - rewrite IH, invoke_sent, invoke_this, <- app_assoc. reflexivity.
Qed.

(** X7.  Calls made one after the other leave their requests in call order after
    those already sent: nothing sent earlier is dropped or reordered, and
    the request at each position is the one its call issues on its own, on
    the same client, whatever the server does. *)
Theorem requests_follow_call_order
    (network : list Request -> Request -> Outcome) (cs : list Call) (w : World) :
  exists rs,
    sent (run network cs w) = sent w ++ rs /\
    Forall2
      (fun c r =>
         forall network' w',
           this w' = this w ->
           sent (snd (invoke network' c w')) = sent w' ++ [r])
      cs rs.
Proof.
  exists (map (request_of (this w)) cs).
  split; [apply run_sent|].
  induction cs as [| c cs IH]; cbn [map]; constructor.
  - intros network' w' Hw. rewrite invoke_sent, Hw. reflexivity.
  - exact IH.
Qed.

Lemma requests_follow_call_order_witness :
  exists rs,
    sent (run (always_fails Js.Null) [Ping; DeleteTask "42"] (initial_world "token"))
      = sent (initial_world "token") ++ rs /\
    Forall2
      (fun c r =>
         forall network' w',
           this w' = this (initial_world "token") ->
           sent (snd (invoke network' c w')) = sent w' ++ [r])
      [Ping; DeleteTask "42"] rs.
Proof.
  exact (requests_follow_call_order (always_fails Js.Null)
           [Ping; DeleteTask "42"] (initial_world "token")).
Defined.

Lemma invoke_console (network : list Request -> Request -> Outcome)
    (c : Call) (w : World) :
  exists lines,
    console (snd (invoke network c w)) = console w ++ lines /\
    length lines <= 1.
Proof.
  destruct (propagates c) eqn:Hc.
  - rewrite (invoke_propagating network c w Hc); cbv zeta.
    destruct (network _ _); [destruct (Js.get _ _)|]; cbn.
    + exists []. rewrite app_nil_r. split; [reflexivity | cbn; lia].
    + eexists. split; [reflexivity | cbn; lia].
    + eexists. split; [reflexivity | cbn; lia].
  - destruct c; try discriminate Hc. cbn [invoke].
    rewrite invoke_ping; cbv zeta.
    destruct (network _ _); [|eexists; split; [reflexivity | cbn; lia]].
    destruct (Js.truthy _); [destruct (Js.get _ _)|]; cbn.
    + exists []. rewrite app_nil_r. split; [reflexivity | cbn; lia].
    + eexists. split; [reflexivity | cbn; lia].
    + exists []. rewrite app_nil_r. split; [reflexivity | cbn; lia].
Qed.

(** X8.  The console is only appended to, by at most one line per call: after
    any sequence of calls the earlier lines are still there, in place, and
    at most as many lines as calls have been added. *)
Theorem console_grows_by_at_most_one_line_per_call
    (network : list Request -> Request -> Outcome) (cs : list Call) (w : World) :
  exists lines,
    console (run network cs w) = console w ++ lines /\
    length lines <= length cs.
Proof.
  revert w. induction cs as [| c cs IH]; intros w; cbn [run].
  - exists []. rewrite app_nil_r. split; [reflexivity | cbn; lia].
  - destruct (invoke_console network c w) as [l1 [H1 Hl1]].
    destruct (IH (snd (invoke network c w))) as [l2 [H2 Hl2]].
    exists (l1 ++ l2). rewrite H2, H1, <- app_assoc.
    split; [reflexivity|]. rewrite length_app. cbn [length]. lia.
Qed.

(** ** What a failure leaves in the console *)

(** X9.  When axios rejects a [retrieveSingle], [updateTask] or [deleteTask], the
    one console line written carries the rejection together with the
    message [Error <verb> task with ID <taskId>:], the identifier spelled
    exactly as the caller passed it. *)
Theorem task_failures_are_logged_with_the_identifier
    (network : list Request -> Request -> Outcome) (c : Call)
    (taskId : string) (w : World) :
  task_id_of c = Some taskId ->
  exists r verb,
    sent (snd (invoke network c w)) = sent w ++ [r] /\
    verb = match c with
           | RetrieveSingle _ => "retrieving"
           | UpdateTask _ _ => "updating"
           | _ => "deleting"
           end /\
    forall e,
      network (sent w) r = Rejected e ->
      console (snd (invoke network c w))
        = console w ++
          [mkLogEntry
             (String.append "Error "
                (String.append verb
                   (String.append " task with ID " (String.append taskId ":"))))
             e].
Proof.
  intros Hc. exists (request_of (this w) c). eexists.
  split; [apply invoke_sent|]. split; [reflexivity|].
  intros e He.
  assert (Hp : propagates c = true) by (destruct c; try discriminate Hc; reflexivity).
  rewrite (invoke_propagating network c w Hp); cbv zeta. rewrite He.
  destruct c; try discriminate Hc; injection Hc as <-; reflexivity.
Qed.

Lemma task_failures_are_logged_with_the_identifier_witness :
  task_id_of (UpdateTask "id 7" Js.Null) = Some "id 7" /\
  console (snd (invoke (always_fails (Js.Str "timeout"))
                  (UpdateTask "id 7" Js.Null) (initial_world "token")))
    = [mkLogEntry "Error updating task with ID id 7:"
         (Js.Rejection (Js.Str "timeout"))].
Proof.
  split; [reflexivity|].
  destruct (task_failures_are_logged_with_the_identifier
              (always_fails (Js.Str "timeout")) (UpdateTask "id 7" Js.Null)
              "id 7" (initial_world "token") eq_refl)
    as [r [verb [_ [Hv Hlog]]]].
  rewrite (Hlog (Js.Rejection (Js.Str "timeout")) eq_refl), Hv. reflexivity.
Defined.

(** ** The collection and health endpoints *)


(** ** What a call reads from the answer *)



(** ** The enumerations *)

(** X12.  [TaskPriority] numbers its five members with exactly the integers from
    -2 to 2, no two alike, and in the order of their names: a higher
    priority has a larger number. *)
Theorem TaskPriority_values_fill_their_range :
  (forall p, (-2 <= Types.TaskPriority_value p <= 2)%Z) /\
  (forall p q, Types.TaskPriority_value p = Types.TaskPriority_value q -> p = q) /\
  (forall z, (-2 <= z <= 2)%Z -> exists p, Types.TaskPriority_value p = z) /\
  (Types.TaskPriority_value Types.Lowest < Types.TaskPriority_value Types.Low
   < Types.TaskPriority_value Types.Normal)%Z /\
  (Types.TaskPriority_value Types.Normal < Types.TaskPriority_value Types.High
   < Types.TaskPriority_value Types.Highest)%Z.
Proof.
  split; [intros p; destruct p; cbn; lia|].
  split; [intros p q; destruct p, q; cbn; intros H; try reflexivity; discriminate H|].
  split; [|cbn; lia].
  intros z Hz.
  assert (Hcases : (z = -2 \/ z = -1 \/ z = 0 \/ z = 1 \/ z = 2)%Z) by lia.
  destruct Hcases as [-> | [-> | [-> | [-> | ->]]]];
    [exists Types.Lowest | exists Types.Low | exists Types.Normal
    | exists Types.High | exists Types.Highest]; reflexivity.
Qed.

(** X13.  [TaskEisenhower] numbers its five members with exactly the integers from
    0 to 4, no two alike; 0 is [Uncategorized]. *)
Theorem TaskEisenhower_values_fill_their_range :
  (forall e, (0 <= Types.TaskEisenhower_value e <= 4)%Z) /\
  (forall e f,
     Types.TaskEisenhower_value e = Types.TaskEisenhower_value f -> e = f) /\
  (forall z, (0 <= z <= 4)%Z -> exists e, Types.TaskEisenhower_value e = z) /\
  (forall e, Types.TaskEisenhower_value e = 0%Z <-> e = Types.Uncategorized).
Proof.
  split; [intros e; destruct e; cbn; lia|].
  split; [intros e f; destruct e, f; cbn; intros H; try reflexivity; discriminate H|].
  split.
  - intros z Hz.
    assert (Hcases : (z = 0 \/ z = 1 \/ z = 2 \/ z = 3 \/ z = 4)%Z) by lia.
    destruct Hcases as [-> | [-> | [-> | [-> | ->]]]];
      [exists Types.Uncategorized | exists Types.UrgentImportant
      | exists Types.UrgentNotImportant | exists Types.ImportantNotUrgent
      | exists Types.NotUrgentOrImportant]; reflexivity.
  - intros e; destruct e; cbn; split; intros H; try reflexivity; discriminate H.
Qed.

(** X14.  The string enumerations give distinct members distinct values, and no
    [TaskStatus] value is also a [TaskMotivation] value. *)
Theorem string_enum_values_are_distinct :
  (forall s t, Types.TaskStatus_value s = Types.TaskStatus_value t -> s = t) /\
  (forall m n,
     Types.TaskMotivation_value m = Types.TaskMotivation_value n -> m = n) /\
  (forall s m, Types.TaskStatus_value s <> Types.TaskMotivation_value m).
Proof.
  split; [intros s t; destruct s, t; cbn; intros H; try reflexivity; discriminate H|].
  split; [intros m n; destruct m, n; cbn; intros H; try reflexivity; discriminate H|].
  intros s m; destruct s, m; cbn; discriminate.
Qed.

Lemma TaskPriority_values_fill_their_range_witness :
  (-2 <= 1 <= 2)%Z /\ exists p, Types.TaskPriority_value p = 1%Z.
Proof.
  split; [lia|].
  apply (proj1 (proj2 (proj2 TaskPriority_values_fill_their_range)) 1%Z). lia.
Defined.

Lemma TaskEisenhower_values_fill_their_range_witness :
  (0 <= 3 <= 4)%Z /\ exists e, Types.TaskEisenhower_value e = 3%Z.
Proof.
  split; [lia|].
  apply (proj1 (proj2 (proj2 TaskEisenhower_values_fill_their_range)) 3%Z). lia.
Defined.

Lemma string_enum_values_are_distinct_witness :
  Types.TaskStatus_value Types.Waiting <> Types.TaskMotivation_value Types.Want.
Proof.
  exact (proj2 (proj2 string_enum_values_are_distinct) Types.Waiting Types.Want).
Defined.

Lemma ping_true_iff_pong_witness :
  fst (ping (always_ok (Js.Object [("message", Js.Str "pong")]))
         (initial_world "token")) = Normal (Js.Bool true).
Proof.
  apply (proj2 (ping_true_iff_pong
                  (always_ok (Js.Object [("message", Js.Str "pong")]))
                  (initial_world "token"))).
  exists (mkResponse 200 (Js.Object [("message", Js.Str "pong")])).
  split; reflexivity.
Defined.
